(** * sign_dmg.py: signing an application bundle inside a disk image

    A shallow embedding of [gpt4all-chat/cmake/sign_dmg.py].  The script is a
    straight line of calls to external tools ([hdiutil], [codesign], [spctl])
    and to the Python standard library ([tempfile], [shutil], [os], [re]),
    with [exit] and exceptions as its only control flow.  The embedding is a
    state-and-exception monad over a small world (the temporary directories
    of the run and a log of what was done); everything the outside world
    decides (the names [mkdtemp] picks, what the tools answer, what is found
    on the mounted volume) is read from an environment. *)

From Stdlib Require Import String Ascii List ZArith Bool Lia.
From Stdlib Require Import Strings.Byte.
Import ListNotations.
Open Scope string_scope.
Open Scope list_scope.
Open Scope Z_scope.

(** ** Python strings and [posixpath] *)

Module Py.

(** [bytes] *)
Definition bytes := list byte.

(** The values that reach [re.search] in the script. *)
Inductive value :=
| VNone
| VStr (s : string)
| VBytes (b : bytes).

(** Truth value of an [Optional[str]]: [None] and [''] are false. *)
Definition truthy (o : option string) : bool :=
  match o with
  | None => false
  | Some s => negb (s =? "")%string
  end.

(** [a or b] on [Optional[str]]. *)
Definition or_ (a b : option string) : option string :=
  if truthy a then a else b.

(** [s.endswith(suffix)] *)
Definition endswith (s suffix : string) : bool :=
  let n := String.length s in
  let m := String.length suffix in
  (m <=? n)%nat && (substring (n - m) m s =? suffix)%string.

(** [s.startswith(prefix)] *)
Definition startswith (s prefix : string) : bool := String.prefix prefix s.

(** [s.rfind(c)] for a one-character [c]: the highest index, or -1. *)
Fixpoint rfind (c : ascii) (s : string) : Z :=
  match s with
  | EmptyString => -1
  | String a s' =>
      let r := rfind c s' in
      if 0 <=? r then r + 1
      else if Ascii.eqb a c then 0 else -1
  end.

(** [s[:n]] and [s[n:]] for [0 <= n]. *)
Fixpoint take (n : nat) (s : string) : string :=
  match n, s with
  | S n', String a s' => String a (take n' s')
  | _, _ => EmptyString
  end.

Fixpoint drop (n : nat) (s : string) : string :=
  match n, s with
  | S n', String _ s' => drop n' s'
  | _, _ => s
  end.

(** [posixpath.join(a, *p)] *)
Definition join1 (path b : string) : string :=
  if startswith b "/" then b
  else if (path =? "")%string || endswith path "/" then (path ++ b)%string
  else (path ++ "/" ++ b)%string.

Definition join (a : string) (p : list string) : string :=
  fold_left join1 p a.

(** [posixpath.basename(p)]: [i = p.rfind('/') + 1; return p[i:]] *)
Definition basename (p : string) : string :=
  drop (Z.to_nat (rfind "/" p + 1)) p.

(** The loop of [genericpath._splitext] that skips leading dots: it looks at
    the [n] characters from [filenameIndex] on and answers whether one of
    them is not a dot. *)
Fixpoint has_non_dot (n : nat) (filenameIndex : nat) (p : string) : bool :=
  match n with
  | O => false
  | S n' =>
      if (substring filenameIndex 1 p =? ".")%string
      then has_non_dot n' (S filenameIndex) p
      else true
  end.

(** [posixpath.splitext(p)] *)
Definition splitext (p : string) : string * string :=
  let sepIndex := rfind "/" p in
  let dotIndex := rfind "." p in
  if sepIndex <? dotIndex then
    let filenameIndex := sepIndex + 1 in
    if has_non_dot (Z.to_nat (dotIndex - filenameIndex)) (Z.to_nat filenameIndex) p
    then (take (Z.to_nat dotIndex) p, drop (Z.to_nat dotIndex) p)
    else (p, "")
  else (p, "").

End Py.

(** ** Exceptions, the log, the world *)

Inductive exn :=
| SystemExit (code : Z)
| CalledProcessError (returncode : Z) (cmd : list string)
| RuntimeError (msg : string) (payload : Py.value)
| TypeError
| ReError
| FileNotFoundError
| FileExistsError
| ShutilError.

(** What [print] is given: a literal, or an f-string ending in [{e}]. *)
Inductive message :=
| Msg (s : string)
| MsgExn (s : string) (e : exn).

(** A directory tree, children in directory-iteration order. *)
#[warnings="-register-all"]
Inductive node :=
| File (name : string)
| Dir (name : string) (children : list node).

Definition node_name (n : node) : string :=
  match n with
  | File name => name
  | Dir name _ => name
  end.

Inductive event :=
| EPrint (m : message)
| EMkdtemp (path : string)
| ERun (argv : list string) (returncode : Z)
| ECopytree (src dst : string)
| EListdir (path : string)
| ERmtree (path : string).

(** The state the script acts on.  [tmpdirs] are the directories made by
    [tempfile.mkdtemp] that still exist, [copies] the trees written by
    [shutil.copytree] that still exist, [made] counts the calls of
    [mkdtemp], [trace] is the log, oldest first. *)
Record world := World {
  tmpdirs : list string;
  copies : list (string * list node);
  made : nat;
  trace : list event
}.

Definition init_world : world := World [] [] 0 [].

(** What the script reads from outside.  The source assumes that the tools
    are installed (its NOTE), so a tool always answers with an exit status
    and what it wrote on standard output. *)
Record env := Env {
  tmpname : nat -> string;
  tool : list string -> Z * Py.bytes;
  read_tree : string -> option (list node);
  re_compiles : string -> bool;
  re_finds : string -> string -> bool
}.

(** The command line, as click hands it to the function. *)
Record args := Args {
  input_dmg : string;
  output_dmg : string;
  signing_identity : option string;
  sha1_hash : option string;
  verify : bool
}.

(** ** The monad *)

Inductive result (A : Type) :=
| Return (a : A)
| Raise (e : exn).
Arguments Return {A} a.
Arguments Raise {A} e.

Definition M (A : Type) : Type := world -> result A * world.

Definition ret {A} (a : A) : M A := fun w => (Return a, w).

Definition raise {A} (e : exn) : M A := fun w => (Raise e, w).

Definition bind {A B} (m : M A) (k : A -> M B) : M B :=
  fun w =>
    match m w with
    | (Return a, w') => k a w'
    | (Raise e, w') => (Raise e, w')
    end.

Declare Scope py_scope.
Delimit Scope py_scope with py.
Notation "x <- c1 ;; c2" := (bind c1 (fun x => c2))
  (at level 61, c1 at next level, right associativity) : py_scope.
Notation "c1 ;; c2" := (bind c1 (fun _ => c2))
  (at level 61, right associativity) : py_scope.
Open Scope py_scope.

(** [try: body  except <class> as e: handler]: [handler] says which
    exceptions it takes. *)
Definition try_except {A} (body : M A) (handler : exn -> option (M A)) : M A :=
  fun w =>
    match body w with
    | (Return a, w') => (Return a, w')
    | (Raise e, w') =>
        match handler e with
        | Some h => h w'
        | None => (Raise e, w')
        end
    end.

(** [except subprocess.CalledProcessError as e:] *)
Definition except_CalledProcessError {A} (h : exn -> M A) (e : exn) : option (M A) :=
  match e with
  | CalledProcessError _ _ => Some (h e)
  | _ => None
  end.

(** [if c: body] *)
Definition when (c : bool) (body : M unit) : M unit :=
  if c then body else ret tt.

Definition log (e : event) : M unit :=
  fun w => (Return tt, World (tmpdirs w) (copies w) (made w) (trace w ++ [e])).

(** ** The library calls *)

Record CompletedProcess := Completed {
  returncode : Z;
  stdout : Py.value
}.

Section Calls.

Variable E : env.

Definition print (m : message) : M unit := log (EPrint m).

(** [exit(code)] raises [SystemExit]. *)
Definition py_exit {A} (code : Z) : M A := raise (SystemExit code).

(** [tempfile.mkdtemp()]: a directory that did not exist before; when the
    name the system proposes is taken, the call fails. *)
Definition mkdtemp : M string :=
  fun w =>
    let p := tmpname E (made w) in
    if existsb (String.eqb p) (tmpdirs w) then (Raise FileExistsError, w)
    else
      (Return p,
       World (tmpdirs w ++ [p]) (copies w) (S (made w)) (trace w ++ [EMkdtemp p])).

(** [subprocess.run(argv, check=..., capture_output=...)]: without
    [text=True] the captured output is [bytes]; with [check] a non-zero
    exit status raises. *)
Definition subprocess_run (argv : list string) (check capture_output : bool)
  : M CompletedProcess :=
  let (rc, out) := tool E argv in
  log (ERun argv rc) ;;
  if check && negb (rc =? 0) then raise (CalledProcessError rc argv)
  else ret (Completed rc (if capture_output then Py.VBytes out else Py.VNone)).

(** [shutil.copytree(src, dst)]: [dst] is a new name inside a directory that
    [mkdtemp] has just made, so the copy fails only when reading [src]
    does. *)
Definition copytree (src dst : string) : M unit :=
  log (ECopytree src dst) ;;
  fun w =>
    match read_tree E src with
    | None => (Raise ShutilError, w)
    | Some kids =>
        (Return tt,
         World (tmpdirs w) (copies w ++ [(dst, kids)]) (made w) (trace w))
    end.

Fixpoint lookup_tree (p : string) (l : list (string * list node))
  : option (list node) :=
  match l with
  | [] => None
  | (q, kids) :: l' => if String.eqb p q then Some kids else lookup_tree p l'
  end.

(** [os.listdir(path)]: the names of the immediate children, in the order
    the directory gives them. *)
Definition listdir (path : string) : M (list string) :=
  log (EListdir path) ;;
  fun w =>
    match lookup_tree path (copies w) with
    | Some kids => (Return (map node_name kids), w)
    | None =>
        if existsb (String.eqb path) (tmpdirs w) then (Return [], w)
        else (Raise FileNotFoundError, w)
    end.

(** [shutil.rmtree(path)]: the directory and all below it go; the call
    fails when there is no such directory. *)
Definition rmtree (path : string) : M unit :=
  log (ERmtree path) ;;
  fun w =>
    if existsb (String.eqb path) (tmpdirs w) then
      (Return tt,
       World (filter (fun q => negb (String.eqb path q)) (tmpdirs w))
             (filter (fun kv => negb (Py.startswith (fst kv) (path ++ "/")%string))
                     (copies w))
             (made w) (trace w))
    else (Raise FileNotFoundError, w).

(** [re.search(pattern, string)] with a [str] pattern: the pattern is
    compiled first, and a [str] pattern only searches a [str]. *)
Definition re_search (pattern : string) (subject : Py.value) : M bool :=
  if re_compiles E pattern then
    match subject with
    | Py.VStr s => ret (re_finds E pattern s)
    | Py.VBytes _ => raise TypeError
    | Py.VNone => raise TypeError
    end
  else raise ReError.

(** An element of an argv must be a [str]. *)
Definition as_str (o : option string) : M string :=
  match o with
  | Some s => ret s
  | None => raise TypeError
  end.

(** ** The script *)

(** The loop of lines 40 to 44. *)
Fixpoint find_app (temp_dir : string) (items : list string) : option string :=
  match items with
  | [] => None
  | item :: rest =>
      if Py.endswith item ".app"
      then Some (Py.join temp_dir ["contents"; item])
      else find_app temp_dir rest
  end.

Definition attach_argv (a : args) (mount_point : string) : list string :=
  ["hdiutil"; "attach"; input_dmg a; "-mountpoint"; mount_point].

Definition detach_argv (mount_point : string) : list string :=
  ["hdiutil"; "detach"; mount_point].

Definition sign_argv (identity app_bundle : string) : list string :=
  ["codesign"; "--deep"; "--force"; "--verbose"; "--options"; "runtime";
   "--timestamp"; "--sign"; identity; app_bundle].

Definition verify_argv (app_bundle : string) : list string :=
  ["codesign"; "--deep"; "--verify"; "--verbose=2"; "--strict"; app_bundle].

Definition spctl_argv (app_bundle : string) : list string :=
  ["spctl"; "-a"; "-t"; "exec"; "-vv"; app_bundle].

Definition create_argv (a : args) (temp_dir : string) : list string :=
  ["hdiutil"; "create";
   "-volname"; fst (Py.splitext (Py.basename (input_dmg a)));
   "-srcfolder"; Py.join temp_dir ["contents"];
   "-ov";
   "-format"; "UDZO";
   output_dmg a].

Definition sign_dmg (a : args) : M unit :=
  when (negb (Py.truthy (signing_identity a)) && negb (Py.truthy (sha1_hash a)))
    (print (Msg "Error: Either --signing-identity or --sha1-hash must be provided.") ;;
     py_exit 1) ;;
  (* Mount the input DMG *)
  mount_point <- mkdtemp ;;
  subprocess_run (attach_argv a mount_point) false false ;;
  (* Copy the contents of the DMG to a temporary folder *)
  temp_dir <- mkdtemp ;;
  copytree mount_point (Py.join temp_dir ["contents"]) ;;
  subprocess_run (detach_argv mount_point) false false ;;
  (* Find the .app bundle in the temporary folder *)
  items <- listdir (Py.join temp_dir ["contents"]) ;;
  let app_bundle := find_app temp_dir items in
  when (negb (Py.truthy app_bundle))
    (print (Msg "No .app bundle found in the DMG.") ;;
     py_exit 1) ;;
  app_bundle <- as_str app_bundle ;;
  (* Sign the .app bundle *)
  try_except
    (identity <- as_str (Py.or_ (sha1_hash a) (signing_identity a)) ;;
     subprocess_run (sign_argv identity app_bundle) true false ;;
     ret tt)
    (except_CalledProcessError (fun e =>
       print (MsgExn "Error during codesign: " e) ;;
       (* Clean up temporary directories *)
       rmtree temp_dir ;;
       rmtree mount_point ;;
       py_exit 1)) ;;
  (* Validate signature and entitlements of signed app bundle *)
  when (verify a)
    (try_except
       (code_ver_proc <- subprocess_run (verify_argv app_bundle) true true ;;
        found <- re_search (app_bundle ++ ": valid")%string (stdout code_ver_proc) ;;
        when (negb found)
          (raise (RuntimeError "codesign validation failed: " (stdout code_ver_proc))))
       (except_CalledProcessError (fun e =>
          print (MsgExn "Error during codesign validation: " e) ;;
          (* Clean up temporary directories *)
       rmtree temp_dir ;;
       rmtree mount_point ;;
       py_exit 1)) ;;
     try_except
       (spctl_proc <- subprocess_run (spctl_argv app_bundle) true true ;;
        found <- re_search (app_bundle ++ ": accepted")%string (stdout spctl_proc) ;;
        when (negb found)
          (raise (RuntimeError "spctl validation failed: " (stdout spctl_proc))))
       (except_CalledProcessError (fun e =>
          print (MsgExn "Error during spctl validation: " e) ;;
          (* Clean up temporary directories *)
          rmtree temp_dir ;;
          rmtree mount_point ;;
          py_exit 1))) ;;
  (* Create a new DMG containing the signed .app bundle *)
  subprocess_run (create_argv a temp_dir) false false ;;
  (* Clean up temporary directories *)
  rmtree temp_dir ;;
  rmtree mount_point.

(** The process: the function runs from the initial world. *)
Definition run (a : args) : result unit * world := sign_dmg a init_world.

End Calls.

(** The exit status of the process: 0 when the function returns, the code
    of a [SystemExit], 1 for an exception nobody caught. *)
Definition exit_status (r : result unit) : Z :=
  match r with
  | Return _ => 0
  | Raise (SystemExit code) => code
  | Raise _ => 1
  end.

(** ** What is observed of a run *)

Definition result_of (E : env) (a : args) : result unit := fst (run E a).

(** The temporary directories that are still there when the process ends. *)
Definition leftover (E : env) (a : args) : list string := tmpdirs (snd (run E a)).

Definition events (E : env) (a : args) : list event := trace (snd (run E a)).

Definition status (E : env) (a : args) : Z := exit_status (result_of E a).

Definition outcome (E : env) (a : args) : result unit * list string * list event :=
  (result_of E a, leftover E a, events E a).

(** The log entry of a tool that was run with [argv]. *)
Definition answered (E : env) (argv : list string) : event :=
  ERun argv (fst (tool E argv)).

(** An identity selector is provided when the test of line 26 takes it as
    present. *)
Definition given (a : args) : bool :=
  Py.truthy (signing_identity a) || Py.truthy (sha1_hash a).

(** The value of [sha1_hash or signing_identity] when one is provided. *)
Definition identity (a : args) : string :=
  match Py.or_ (sha1_hash a) (signing_identity a) with
  | Some s => s
  | None => ""
  end.

Section Names.

Variables (E : env) (a : args).

Definition mount_point : string := tmpname E 0.
Definition temp_dir : string := tmpname E 1.
Definition contents : string := Py.join temp_dir ["contents"].

(** The log of lines 31 to 41, which every run that lists the copied
    directory shares. *)
Definition extraction : list event :=
  [EMkdtemp mount_point; answered E (attach_argv a mount_point);
   EMkdtemp temp_dir; ECopytree mount_point contents;
   answered E (detach_argv mount_point); EListdir contents].

End Names.

(** Which tool an argv calls. *)
Definition is_hdiutil (argv : list string) : bool :=
  match argv with
  | tool :: _ => (tool =? "hdiutil")%string
  | [] => false
  end.

Definition is_create_call (argv : list string) : bool :=
  match argv with
  | tool :: verb :: _ => (tool =? "hdiutil")%string && (verb =? "create")%string
  | _ => false
  end.

Definition is_sign_call (argv : list string) : bool :=
  match argv with
  | tool :: _ :: mode :: _ => (tool =? "codesign")%string && (mode =? "--force")%string
  | _ => false
  end.

Definition is_verify_call (argv : list string) : bool :=
  match argv with
  | tool :: _ :: mode :: _ => (tool =? "codesign")%string && (mode =? "--verify")%string
  | _ => false
  end.

Definition is_spctl_call (argv : list string) : bool :=
  match argv with
  | tool :: _ => (tool =? "spctl")%string
  | [] => false
  end.

(** [ran p tr]: the log [tr] has a tool run whose argv and exit status
    satisfy [p]. *)
Definition ran (p : list string -> Z -> bool) (tr : list event) : bool :=
  existsb (fun e => match e with ERun argv rc => p argv rc | _ => false end) tr.

(** ** The paths through the script

    The script has eight ways to end.  [path_of] decides from the command
    line and the environment which one a run takes, and [path_outcome] says
    what is observed of it; [run_path] below proves that this is what
    [sign_dmg] does. *)

Inductive path :=
| Usage
| TmpClash
| CopyFailed
| NoBundle
| SignFailed (app_bundle : string)
| Signed (app_bundle : string)
| VerifyFailed (app_bundle : string)
| VerifyCrashed (app_bundle : string).

Definition path_of (E : env) (a : args) : path :=
  if negb (given a) then Usage
  else if (temp_dir E =? mount_point E)%string then TmpClash
  else
    match read_tree E (mount_point E) with
    | None => CopyFailed
    | Some kids =>
        match find_app (temp_dir E) (map node_name kids) with
        | None => NoBundle
        | Some app_bundle =>
            if negb (fst (tool E (sign_argv (identity a) app_bundle)) =? 0)
            then SignFailed app_bundle
            else if negb (verify a) then Signed app_bundle
            else if negb (fst (tool E (verify_argv app_bundle)) =? 0)
            then VerifyFailed app_bundle
            else VerifyCrashed app_bundle
        end
    end.

Definition caught (E : env) (argv : list string) : exn :=
  CalledProcessError (fst (tool E argv)) argv.

Definition path_outcome (E : env) (a : args) (p : path)
  : result unit * list string * list event :=
  match p with
  | Usage =>
      (Raise (SystemExit 1), [],
       [EPrint (Msg "Error: Either --signing-identity or --sha1-hash must be provided.")])
  | TmpClash =>
      (Raise FileExistsError, [mount_point E],
       [EMkdtemp (mount_point E); answered E (attach_argv a (mount_point E))])
  | CopyFailed =>
      (Raise ShutilError, [mount_point E; temp_dir E],
       [EMkdtemp (mount_point E); answered E (attach_argv a (mount_point E));
        EMkdtemp (temp_dir E); ECopytree (mount_point E) (contents E)])
  | NoBundle =>
      (Raise (SystemExit 1), [mount_point E; temp_dir E],
       extraction E a ++ [EPrint (Msg "No .app bundle found in the DMG.")])
  | SignFailed app_bundle =>
      (Raise (SystemExit 1), [],
       extraction E a ++
       [answered E (sign_argv (identity a) app_bundle);
        EPrint (MsgExn "Error during codesign: "
                  (caught E (sign_argv (identity a) app_bundle)));
        ERmtree (temp_dir E); ERmtree (mount_point E)])
  | Signed app_bundle =>
      (Return tt, [],
       extraction E a ++
       [answered E (sign_argv (identity a) app_bundle);
        answered E (create_argv a (temp_dir E));
        ERmtree (temp_dir E); ERmtree (mount_point E)])
  | VerifyFailed app_bundle =>
      (Raise (SystemExit 1), [],
       extraction E a ++
       [answered E (sign_argv (identity a) app_bundle);
        answered E (verify_argv app_bundle);
        EPrint (MsgExn "Error during codesign validation: "
                  (caught E (verify_argv app_bundle)));
        ERmtree (temp_dir E); ERmtree (mount_point E)])
  | VerifyCrashed app_bundle =>
      (Raise (if re_compiles E (app_bundle ++ ": valid")%string then TypeError else ReError),
       [mount_point E; temp_dir E],
       extraction E a ++
       [answered E (sign_argv (identity a) app_bundle);
        answered E (verify_argv app_bundle)])
  end.

(** The conditions under which each path is taken. *)
Inductive path_taken (E : env) (a : args) : path -> Prop :=
| TakeUsage :
    given a = false -> path_taken E a Usage
| TakeTmpClash :
    given a = true -> mount_point E = temp_dir E -> path_taken E a TmpClash
| TakeCopyFailed :
    given a = true -> mount_point E <> temp_dir E ->
    read_tree E (mount_point E) = None ->
    path_taken E a CopyFailed
| TakeNoBundle kids :
    given a = true -> mount_point E <> temp_dir E ->
    read_tree E (mount_point E) = Some kids ->
    find_app (temp_dir E) (map node_name kids) = None ->
    path_taken E a NoBundle
| TakeSignFailed kids b :
    given a = true -> mount_point E <> temp_dir E ->
    read_tree E (mount_point E) = Some kids ->
    find_app (temp_dir E) (map node_name kids) = Some b ->
    fst (tool E (sign_argv (identity a) b)) <> 0 ->
    path_taken E a (SignFailed b)
| TakeSigned kids b :
    given a = true -> mount_point E <> temp_dir E ->
    read_tree E (mount_point E) = Some kids ->
    find_app (temp_dir E) (map node_name kids) = Some b ->
    fst (tool E (sign_argv (identity a) b)) = 0 ->
    verify a = false ->
    path_taken E a (Signed b)
| TakeVerifyFailed kids b :
    given a = true -> mount_point E <> temp_dir E ->
    read_tree E (mount_point E) = Some kids ->
    find_app (temp_dir E) (map node_name kids) = Some b ->
    fst (tool E (sign_argv (identity a) b)) = 0 ->
    verify a = true ->
    fst (tool E (verify_argv b)) <> 0 ->
    path_taken E a (VerifyFailed b)
| TakeVerifyCrashed kids b :
    given a = true -> mount_point E <> temp_dir E ->
    read_tree E (mount_point E) = Some kids ->
    find_app (temp_dir E) (map node_name kids) = Some b ->
    fst (tool E (sign_argv (identity a) b)) = 0 ->
    verify a = true ->
    fst (tool E (verify_argv b)) = 0 ->
    path_taken E a (VerifyCrashed b).

(** ** Reading the log *)



(** The signing tool was run and exited non-zero. *)
Definition sign_failed (tr : list event) : bool :=
  ran (fun argv rc => is_sign_call argv && negb (rc =? 0)) tr.

(** The signature-verification tool was run and exited zero. *)
Definition verify_exited_zero (tr : list event) : bool :=
  ran (fun argv rc => is_verify_call argv && (rc =? 0)) tr.

Definition spctl_called (tr : list event) : bool :=
  ran (fun argv _ => is_spctl_call argv) tr.

Definition create_called (tr : list event) : bool :=
  ran (fun argv _ => is_create_call argv) tr.

(** ** Changing what [hdiutil] answers

    [with_hdiutil f E] is the environment [E] in which every call of
    [hdiutil] answers what [f] says; [restatus f] makes the same change in a
    log entry. *)

Definition with_hdiutil (f : list string -> Z * Py.bytes) (E : env) : env :=
  Env (tmpname E)
      (fun argv => if is_hdiutil argv then f argv else tool E argv)
      (read_tree E) (re_compiles E) (re_finds E).

Definition restatus (f : list string -> Z * Py.bytes) (e : event) : event :=
  match e with
  | ERun argv rc => if is_hdiutil argv then ERun argv (fst (f argv)) else e
  | _ => e
  end.

(** ** A sample machine *)

Module Sample.

(** A volume with two bundles at the top, and one with a bundle only
    inside a folder. *)
Definition two_bundles : list node :=
  [File "README.txt";
   Dir "Chat.app" [Dir "Contents" [File "Info.plist"]];
   Dir "Extras.app" []].

Definition nested_only : list node :=
  [File "README.txt"; Dir "Applications" [Dir "Chat.app" []]].

Definition names (n : nat) : string :=
  match n with
  | O => "/tmp/tmpa1"
  | _ => "/tmp/tmpb2"
  end.

(** [codesign --sign] exits with [sign_rc], [codesign --verify] with
    [verify_rc] and nothing on standard output, [hdiutil] with
    [hdiutil_rc]. *)
Definition tools (sign_rc verify_rc hdiutil_rc : Z) (argv : list string)
  : Z * Py.bytes :=
  if is_sign_call argv then (sign_rc, [])
  else if is_verify_call argv then (verify_rc, [])
  else if is_hdiutil argv then (hdiutil_rc, [])
  else (0, []).

Definition machine (sign_rc verify_rc hdiutil_rc : Z) (volume : list node) : env :=
  Env names (tools sign_rc verify_rc hdiutil_rc) (fun _ => Some volume)
      (fun _ => true) (fun _ _ => true).

Definition command (fingerprint common_name : option string) (check : bool) : args :=
  Args "/path/to/your/input.dmg" "/path/to/your/output.dmg"
       common_name fingerprint check.

Definition developer : option string :=
  Some "Developer ID Application: YOUR_NAME (TEAM_ID)".

Definition fingerprint : option string :=
  Some "3B5A1C9E0D2F4A6B8C7D9E1F2A3B4C5D6E7F8091".

(** Machines: all tools succeed; signing fails; verification exits
    non-zero; every [hdiutil] call fails; the volume has no bundle at its
    top. *)
Definition healthy : env := machine 0 0 0 two_bundles.
Definition verification_fails : env := machine 0 1 0 two_bundles.
Definition hdiutil_fails : env := machine 0 0 1 two_bundles.
Definition no_bundle : env := machine 0 0 0 nested_only.

(** Command lines: a common name only, without and with [--verify]; both
    selectors; no usable selector. *)
Definition plain : args := command None developer false.
Definition checked : args := command None developer true.
Definition neither : args := command None (Some "") true.

End Sample.

(** ** More readings of the log *)

Definition is_codesign (argv : list string) : bool :=
  match argv with
  | tool :: _ => (tool =? "codesign")%string
  | [] => false
  end.

Definition is_detach_call (argv : list string) : bool :=
  match argv with
  | tool :: verb :: _ => (tool =? "hdiutil")%string && (verb =? "detach")%string
  | _ => false
  end.


(** A log entry that is not a tool run, or the run of [hdiutil] or
    [codesign]. *)
Definition known_tool_event (e : event) : bool :=
  match e with
  | ERun argv _ => is_hdiutil argv || is_codesign argv
  | _ => true
  end.



Definition detach_called (tr : list event) : bool :=
  ran (fun argv _ => is_detach_call argv) tr.

(** ** Changing what the tools print and what the pattern finds

    [with_output g finds E] is the environment [E] in which every tool
    writes [g argv] on its standard output and [re.search] finds what
    [finds] says; exit statuses, names and files are those of [E]. *)
Definition with_output (g : list string -> Py.bytes)
    (finds : string -> string -> bool) (E : env) : env :=
  Env (tmpname E)
      (fun argv => (fst (tool E argv), g argv))
      (read_tree E) (re_compiles E) finds.

(** ** More sample machines *)

Module Cases.

(** The mounted volume cannot be read: [copytree] raises. *)
Definition unreadable : env :=
  Env Sample.names (Sample.tools 0 0 0) (fun _ => None)
      (fun _ => true) (fun _ _ => true).

(** A fingerprint only, and an empty fingerprint with a common name. *)
Definition fingerprint_only : args := Sample.command Sample.fingerprint None false.

End Cases.

(** * Proofs *)

(** Paths and argument lists stay folded while the script is run on
    symbolic inputs. *)
#[local] Arguments Py.join : simpl never.
#[local] Arguments Py.endswith : simpl never.
#[local] Arguments Py.startswith : simpl never.
#[local] Arguments Py.splitext : simpl never.
#[local] Arguments Py.basename : simpl never.
#[local] Arguments String.append : simpl never.
#[local] Arguments attach_argv : simpl never.
#[local] Arguments detach_argv : simpl never.
#[local] Arguments sign_argv : simpl never.
#[local] Arguments verify_argv : simpl never.
#[local] Arguments spctl_argv : simpl never.
#[local] Arguments create_argv : simpl never.

Ltac unfold_script :=
  unfold outcome, status, result_of, leftover, events, extraction, answered,
    contents, temp_dir, mount_point,
    run, sign_dmg, when, print, py_exit, mkdtemp, subprocess_run, copytree,
    listdir, rmtree, re_search, as_str, try_except,
    except_CalledProcessError, bind, ret, raise, log, init_world.

(** Runs the script as far as the facts in the context decide it. *)
Ltac use_hyps :=
  repeat (cbn;
    match goal with
    | |- context [String.eqb ?x ?x] => rewrite (String.eqb_refl x)
    | H : ?x = _ |- context [?x] => rewrite H
    end).

Ltac exec := unfold_script; use_hyps; cbn; try reflexivity.

(** ** Strings *)

Lemma endswith_nonempty s suffix :
  suffix <> "" -> Py.endswith s suffix = true -> s <> "".
Proof.
  intros Hs H ->. unfold Py.endswith in H. cbn in H.
  destruct suffix; [congruence | discriminate].
Qed.

Lemma join1_nonempty p b : b <> "" -> Py.join1 p b <> "".
Proof.
  intros Hb. unfold Py.join1.
  destruct (Py.startswith b "/"); [exact Hb|].
  destruct ((p =? "")%string || Py.endswith p "/").
  - destruct p; cbn; [exact Hb | discriminate].
  - destruct p; cbn; discriminate.
Qed.

Lemma rfind_lower c s : -1 <= Py.rfind c s.
Proof.
  induction s as [|x s IH]; cbn; [lia|].
  destruct (Z.leb_spec 0 (Py.rfind c s)); [lia|].
  destruct (Ascii.eqb x c); lia.
Qed.

Lemma drop_0 s : Py.drop 0 s = s.
Proof. destruct s; reflexivity. Qed.

Lemma take_drop n s : (Py.take n s ++ Py.drop n s)%string = s.
Proof.
  revert s. induction n as [|n IH]; intros [|x s]; try reflexivity.
  change (String x (Py.take n s ++ Py.drop n s)%string = String x s).
  rewrite IH. reflexivity.
Qed.

Lemma append_empty s : (s ++ "")%string = s.
Proof.
  induction s as [|x s IH]; [reflexivity|].
  change (String x (s ++ "")%string = String x s). rewrite IH. reflexivity.
Qed.

(** [posixpath.basename] returns a name without a slash, and it is the end
    of the path. *)
Lemma basename_no_sep p : Py.rfind "/" (Py.basename p) = -1.
Proof.
  unfold Py.basename.
  induction p as [|x p IH]; [reflexivity|].
  pose proof (rfind_lower "/" p) as Hlow.
  cbn [Py.rfind].
  destruct (Z.leb_spec 0 (Py.rfind "/" p)) as [Hr|Hr].
  - replace (Z.to_nat (Py.rfind "/" p + 1 + 1))
      with (S (Z.to_nat (Py.rfind "/" p + 1))) by lia.
    exact IH.
  - destruct (Ascii.eqb x "/") eqn:Hx.
    + change (Z.to_nat (0 + 1)) with 1%nat. cbn [Py.drop].
      rewrite ?drop_0. lia.
    + change (Z.to_nat (-1 + 1)) with 0%nat. rewrite drop_0.
      cbn [Py.rfind].
      destruct (Z.leb_spec 0 (Py.rfind "/" p)); [lia|].
      rewrite Hx. reflexivity.
Qed.

Lemma basename_suffix p :
  (Py.take (Z.to_nat (Py.rfind "/" p + 1)) p ++ Py.basename p)%string = p.
Proof. apply take_drop. Qed.

(** [posixpath.splitext] cuts the name in two. *)
Lemma splitext_concat p :
  (fst (Py.splitext p) ++ snd (Py.splitext p))%string = p.
Proof.
  unfold Py.splitext.
  destruct (Py.rfind "/" p <? Py.rfind "." p).
  - destruct (Py.has_non_dot _ _ p); cbn [fst snd].
    + apply take_drop.
    + apply append_empty.
  - cbn [fst snd]. apply append_empty.
Qed.

Example volume_name_of_sample :
  fst (Py.splitext (Py.basename "/path/to/your/input.dmg")) = "input".
Proof. reflexivity. Qed.

Example splitext_samples :
  map Py.splitext ["input.dmg"; "archive.tar.gz"; ".hidden"; "..x.dmg"; "name."; "plain"] =
    [("input", ".dmg"); ("archive.tar", ".gz"); (".hidden", ""); ("..x", ".dmg");
     ("name", "."); ("plain", "")].
Proof. reflexivity. Qed.

Example join_samples :
  Py.join "/tmp/tmpb2" ["contents"] = "/tmp/tmpb2/contents" /\
  Py.join "/tmp/tmpb2" ["contents"; "Chat.app"] = "/tmp/tmpb2/contents/Chat.app" /\
  Py.join "/tmp/tmpb2/" ["contents"] = "/tmp/tmpb2/contents" /\
  Py.join "/tmp/tmpb2" ["contents"; "/Chat.app"] = "/Chat.app".
Proof. repeat split; reflexivity. Qed.

Example endswith_samples :
  map (fun s => Py.endswith s ".app") ["Chat.app"; ".app"; "app"; "Chat.app.zip"; "Chat.APP"] =
    [true; true; false; false; false].
Proof. reflexivity. Qed.

(** ** The bundle locator *)

Lemma find_app_inv td items b :
  find_app td items = Some b ->
  exists pre item post,
    items = pre ++ item :: post /\
    Forall (fun x => Py.endswith x ".app" = false) pre /\
    Py.endswith item ".app" = true /\
    b = Py.join td ["contents"; item].
Proof.
  induction items as [|x rest IH]; cbn; [discriminate|].
  destruct (Py.endswith x ".app") eqn:Hx.
  - intros [= <-]. exists [], x, rest. repeat split; auto.
  - intros H. destruct (IH H) as (pre & item & post & -> & Hpre & Hitem & ->).
    exists (x :: pre), item, post. repeat split; auto.
Qed.


Lemma find_app_none td items :
  find_app td items = None <->
  Forall (fun x => Py.endswith x ".app" = false) items.
Proof.
  induction items as [|x rest IH]; cbn.
  - split; auto.
  - destruct (Py.endswith x ".app") eqn:Hx; split.
    + discriminate.
    + intros H. inversion H. congruence.
    + intros H. constructor; [exact Hx | apply IH, H].
    + intros H. inversion H. apply IH. assumption.
Qed.

Lemma find_app_nonempty td items b :
  find_app td items = Some b -> (b =? "")%string = false.
Proof.
  intros (pre & item & post & _ & _ & Hitem & ->)%find_app_inv.
  apply String.eqb_neq. unfold Py.join. cbn [fold_left].
  apply join1_nonempty. eapply endswith_nonempty; [|exact Hitem]. discriminate.
Qed.

(** ** The identity selectors *)

Lemma given_false a :
  given a = false ->
  Py.truthy (signing_identity a) = false /\ Py.truthy (sha1_hash a) = false.
Proof. unfold given. apply orb_false_iff. Qed.

Lemma given_guard a :
  given a = true ->
  negb (Py.truthy (signing_identity a)) && negb (Py.truthy (sha1_hash a)) = false.
Proof.
  unfold given.
  destruct (Py.truthy (signing_identity a)), (Py.truthy (sha1_hash a)); easy.
Qed.

Lemma given_identity a :
  given a = true ->
  Py.or_ (sha1_hash a) (signing_identity a) = Some (identity a).
Proof.
  unfold given, identity, Py.or_.
  destruct (Py.truthy (sha1_hash a)) eqn:Hs.
  - destruct (sha1_hash a); [reflexivity | discriminate].
  - rewrite orb_false_r. destruct (signing_identity a); [reflexivity | discriminate].
Qed.

Lemma fresh_eqb E :
  mount_point E <> temp_dir E -> (tmpname E 1 =? tmpname E 0)%string = false.
Proof. intros H. apply String.eqb_neq. intros Heq. apply H. symmetry. exact Heq. Qed.

(** ** The paths of the script *)

Lemma run_usage E a :
  given a = false -> outcome E a = path_outcome E a Usage.
Proof.
  intros [Hi Hs]%given_false. exec.
Qed.

Lemma run_tmp_clash E a :
  given a = true -> mount_point E = temp_dir E ->
  outcome E a = path_outcome E a TmpClash.
Proof.
  intros Hg%given_guard Hc. unfold mount_point, temp_dir in Hc.
  destruct (tool E (attach_argv a (tmpname E 0))) as [rc out] eqn:Ht.
  unfold path_outcome. exec.
Qed.

Lemma run_copy_failed E a :
  given a = true -> mount_point E <> temp_dir E ->
  read_tree E (mount_point E) = None ->
  outcome E a = path_outcome E a CopyFailed.
Proof.
  intros Hg%given_guard Hf%fresh_eqb Hr. unfold mount_point in Hr.
  destruct (tool E (attach_argv a (tmpname E 0))) as [rc out] eqn:Ht.
  unfold path_outcome. exec.
Qed.

Lemma run_no_bundle E a kids :
  given a = true -> mount_point E <> temp_dir E ->
  read_tree E (mount_point E) = Some kids ->
  find_app (temp_dir E) (map node_name kids) = None ->
  outcome E a = path_outcome E a NoBundle.
Proof.
  intros Hg%given_guard Hf%fresh_eqb Hr Hn.
  unfold mount_point in Hr. unfold temp_dir in Hn.
  destruct (tool E (attach_argv a (tmpname E 0))) as [rc out] eqn:Ht.
  destruct (tool E (detach_argv (tmpname E 0))) as [rc' out'] eqn:Ht'.
  unfold path_outcome. exec.
Qed.

Section Signing.

Variables (E : env) (a : args) (kids : list node) (app_bundle : string).
Hypothesis Hgiven : given a = true.
Hypothesis Hfresh : mount_point E <> temp_dir E.
Hypothesis Hread : read_tree E (mount_point E) = Some kids.
Hypothesis Hfound : find_app (temp_dir E) (map node_name kids) = Some app_bundle.

Ltac setup :=
  pose proof (given_guard _ Hgiven) as Hg;
  pose proof (given_identity _ Hgiven) as Hid;
  pose proof (fresh_eqb _ Hfresh) as Hf;
  pose proof (find_app_nonempty _ _ _ Hfound) as Hne;
  pose proof Hread as Hr; pose proof Hfound as Hfd;
  unfold mount_point in Hr; unfold temp_dir in Hfd;
  destruct (tool E (attach_argv a (tmpname E 0))) as [rc1 out1] eqn:Ht1;
  destruct (tool E (detach_argv (tmpname E 0))) as [rc2 out2] eqn:Ht2;
  unfold path_outcome, caught.

Lemma run_sign_failed :
  fst (tool E (sign_argv (identity a) app_bundle)) <> 0 ->
  outcome E a = path_outcome E a (SignFailed app_bundle).
Proof.
  setup.
  destruct (tool E (sign_argv (identity a) app_bundle)) as [rc out] eqn:Ht.
  cbn [fst]. intros Hrc%Z.eqb_neq.
  exec.
Qed.

Lemma run_signed :
  fst (tool E (sign_argv (identity a) app_bundle)) = 0 ->
  verify a = false ->
  outcome E a = path_outcome E a (Signed app_bundle).
Proof.
  setup.
  destruct (tool E (sign_argv (identity a) app_bundle)) as [rc out] eqn:Ht.
  destruct (tool E (create_argv a (tmpname E 1))) as [rc3 out3] eqn:Ht3.
  cbn [fst]. intros -> Hv.
  exec.
Qed.

Lemma run_verify_failed :
  fst (tool E (sign_argv (identity a) app_bundle)) = 0 ->
  verify a = true ->
  fst (tool E (verify_argv app_bundle)) <> 0 ->
  outcome E a = path_outcome E a (VerifyFailed app_bundle).
Proof.
  setup.
  destruct (tool E (sign_argv (identity a) app_bundle)) as [rc out] eqn:Ht.
  destruct (tool E (verify_argv app_bundle)) as [rc3 out3] eqn:Ht3.
  cbn [fst]. intros -> Hv Hrc%Z.eqb_neq.
  exec.
Qed.

Lemma run_verify_crashed :
  fst (tool E (sign_argv (identity a) app_bundle)) = 0 ->
  verify a = true ->
  fst (tool E (verify_argv app_bundle)) = 0 ->
  outcome E a = path_outcome E a (VerifyCrashed app_bundle).
Proof.
  setup.
  destruct (tool E (sign_argv (identity a) app_bundle)) as [rc out] eqn:Ht.
  destruct (tool E (verify_argv app_bundle)) as [rc3 out3] eqn:Ht3.
  cbn [fst]. intros -> Hv ->.
  destruct (re_compiles E (app_bundle ++ ": valid")%string) eqn:Hc; exec.
Qed.

End Signing.

Lemma path_of_taken E a : path_taken E a (path_of E a).
Proof.
  unfold path_of.
  destruct (given a) eqn:Hg; cbn [negb]; [|constructor; exact Hg].
  destruct (String.eqb_spec (temp_dir E) (mount_point E)) as [Hc|Hf].
  { constructor; [exact Hg | symmetry; exact Hc]. }
  assert (Hf' : mount_point E <> temp_dir E) by (intros H; apply Hf; symmetry; exact H).
  destruct (read_tree E (mount_point E)) as [kids|] eqn:Hr;
    [|constructor; assumption].
  destruct (find_app (temp_dir E) (map node_name kids)) as [b|] eqn:Hb;
    [|econstructor; eassumption].
  destruct (Z.eqb_spec (fst (tool E (sign_argv (identity a) b))) 0) as [Hs|Hs];
    cbn [negb]; [|econstructor; eassumption].
  destruct (verify a) eqn:Hv; cbn [negb]; [|econstructor; eassumption].
  destruct (Z.eqb_spec (fst (tool E (verify_argv b))) 0) as [Hw|Hw]; cbn [negb];
    econstructor; eassumption.
Qed.

(** The script does what the decision tree says. *)
Theorem run_path E a : outcome E a = path_outcome E a (path_of E a).
Proof.
  destruct (path_of_taken E a).
  - apply run_usage; assumption.
  - apply run_tmp_clash; assumption.
  - apply run_copy_failed; assumption.
  - eapply run_no_bundle; eassumption.
  - eapply run_sign_failed; eassumption.
  - eapply run_signed; eassumption.
  - eapply run_verify_failed; eassumption.
  - eapply run_verify_crashed; eassumption.
Qed.

Lemma result_path E a : result_of E a = fst (fst (path_outcome E a (path_of E a))).
Proof. rewrite <- run_path. reflexivity. Qed.

Lemma leftover_path E a : leftover E a = snd (fst (path_outcome E a (path_of E a))).
Proof. rewrite <- run_path. reflexivity. Qed.

Lemma events_path E a : events E a = snd (path_outcome E a (path_of E a)).
Proof. rewrite <- run_path. reflexivity. Qed.


(** ** Reading the log of a path *)

Ltac on_path E a :=
  unfold status;
  rewrite ?(result_path E a), ?(leftover_path E a), ?(events_path E a) in *;
  destruct (path_of_taken E a).

Ltac read_log :=
  unfold sign_failed, verify_exited_zero, spctl_called, create_called, ran,
    path_outcome, extraction, answered, caught,
    attach_argv, detach_argv, sign_argv, verify_argv, spctl_argv, create_argv in *;
  cbn in *.

(** * The claims *)

(** C4.  When neither a certificate fingerprint nor a common name is
    provided, the run prints the usage error and ends with exit status 1;
    the print is the only thing it does: no tool is run, [mkdtemp] is never
    called, no directory exists afterwards. *)
Theorem usage_error_before_anything E a :
  Py.truthy (sha1_hash a) = false ->
  Py.truthy (signing_identity a) = false ->
  run E a =
    (Raise (SystemExit 1),
     World [] [] 0
       [EPrint (Msg "Error: Either --signing-identity or --sha1-hash must be provided.")])
  /\ status E a = 1.
Proof.
  intros Hs Hi.
  assert (Hrun : run E a =
    (Raise (SystemExit 1),
     World [] [] 0
       [EPrint (Msg "Error: Either --signing-identity or --sha1-hash must be provided.")])).
  { exec. }
  split; [exact Hrun|].
  unfold status, result_of. rewrite Hrun. reflexivity.
Qed.

Lemma usage_error_before_anything_witness :
  Py.truthy (sha1_hash Sample.neither) = false /\
  Py.truthy (signing_identity Sample.neither) = false /\
  run Sample.healthy Sample.neither =
    (Raise (SystemExit 1),
     World [] [] 0
       [EPrint (Msg "Error: Either --signing-identity or --sha1-hash must be provided.")]) /\
  status Sample.healthy Sample.neither = 1.
Proof.
  split; [reflexivity|]. split; [reflexivity|].
  apply (usage_error_before_anything Sample.healthy Sample.neither); reflexivity.
Defined.



(** C3.  In a run with the verify flag in which the signature-verification
    tool was run and exited zero, [re.search] is given a [str] pattern and
    the captured [bytes] and raises (or the pattern does not compile, and it
    raises for that): nothing catches the exception, so the process ends
    with status 1 right after that tool run; [spctl] and [hdiutil create]
    are never run and both temporary directories remain. *)
Theorem verify_exit_zero_crashes E a :
  verify a = true ->
  verify_exited_zero (events E a) = true ->
  (result_of E a = Raise TypeError \/ result_of E a = Raise ReError) /\
  status E a = 1 /\
  (exists app_bundle,
      last (events E a) (EPrint (Msg "")) = ERun (verify_argv app_bundle) 0) /\
  spctl_called (events E a) = false /\
  create_called (events E a) = false /\
  leftover E a = [mount_point E; temp_dir E].
Proof.
  intros Hv H. on_path E a; read_log; try discriminate.
  - match goal with Hz : fst (tool _ _) <> 0 |- _ =>
      apply Z.eqb_neq in Hz; rewrite Hz in H end.
    discriminate.
  - match goal with Hz : fst (tool E [_; _; "--verify"; _; _; _]) = 0 |- _ =>
      rewrite Hz end.
    repeat split; try reflexivity.
    + destruct (re_compiles E _); cbn; auto.
    + destruct (re_compiles E _); reflexivity.
    + eexists. reflexivity.
Qed.

Lemma verify_exit_zero_crashes_witness :
  verify Sample.checked = true /\
  verify_exited_zero (events Sample.healthy Sample.checked) = true /\
  (result_of Sample.healthy Sample.checked = Raise TypeError \/
   result_of Sample.healthy Sample.checked = Raise ReError) /\
  status Sample.healthy Sample.checked = 1 /\
  (exists app_bundle,
      last (events Sample.healthy Sample.checked) (EPrint (Msg "")) =
      ERun (verify_argv app_bundle) 0) /\
  spctl_called (events Sample.healthy Sample.checked) = false /\
  create_called (events Sample.healthy Sample.checked) = false /\
  leftover Sample.healthy Sample.checked =
    [mount_point Sample.healthy; temp_dir Sample.healthy].
Proof.
  split; [reflexivity|]. split; [reflexivity|].
  apply (verify_exit_zero_crashes Sample.healthy Sample.checked); reflexivity.
Defined.

(** C6.  When an identity is provided, the copy went through, and no
    immediate child of the copied directory has a name ending in [.app],
    the run prints that no bundle was found, as the last thing it does, and
    ends through [exit(1)]. *)
Theorem no_bundle_reported E a kids :
  given a = true ->
  mount_point E <> temp_dir E ->
  read_tree E (mount_point E) = Some kids ->
  Forall (fun n => Py.endswith (node_name n) ".app" = false) kids ->
  last (events E a) (EPrint (Msg "")) = EPrint (Msg "No .app bundle found in the DMG.") /\
  result_of E a = Raise (SystemExit 1) /\
  status E a = 1.
Proof.
  intros Hg Hf Hr Hk.
  assert (Hn : find_app (temp_dir E) (map node_name kids) = None).
  { apply find_app_none. apply Forall_map. exact Hk. }
  pose proof (run_no_bundle E a kids Hg Hf Hr Hn) as Hrun.
  unfold outcome in Hrun. injection Hrun as Hres _ Hev.
  unfold status. rewrite Hres, Hev.
  repeat split; reflexivity.
Qed.

Lemma no_bundle_reported_witness :
  given Sample.plain = true /\
  mount_point Sample.no_bundle <> temp_dir Sample.no_bundle /\
  read_tree Sample.no_bundle (mount_point Sample.no_bundle) = Some Sample.nested_only /\
  Forall (fun n => Py.endswith (node_name n) ".app" = false) Sample.nested_only /\
  last (events Sample.no_bundle Sample.plain) (EPrint (Msg "")) =
    EPrint (Msg "No .app bundle found in the DMG.") /\
  result_of Sample.no_bundle Sample.plain = Raise (SystemExit 1) /\
  status Sample.no_bundle Sample.plain = 1.
Proof.
  split; [reflexivity|]. split; [discriminate|]. split; [reflexivity|].
  split; [repeat constructor|].
  apply (no_bundle_reported Sample.no_bundle Sample.plain Sample.nested_only).
  - reflexivity.
  - discriminate.
  - reflexivity.
  - repeat constructor.
Defined.





(** C9.  Whenever [hdiutil create] is run, its arguments are: the volume
    name [os.path.splitext(os.path.basename(input_dmg))[0]], the copied
    [contents] directory of the working directory as source folder, [-ov]
    (overwrite), the format [UDZO] (compressed, read-only), and the output
    path; and every run that returns normally has run it. *)
Theorem repackaging_arguments E a :
  (forall argv rc,
      In (ERun argv rc) (events E a) ->
      is_create_call argv = true ->
      argv =
        ["hdiutil"; "create";
         "-volname"; fst (Py.splitext (Py.basename (input_dmg a)));
         "-srcfolder"; Py.join (temp_dir E) ["contents"];
         "-ov";
         "-format"; "UDZO";
         output_dmg a]) /\
  (result_of E a = Return tt ->
   exists rc, In (ERun (create_argv a (temp_dir E)) rc) (events E a)).
Proof.
  split.
  - intros argv rc Hin Hcall.
    on_path E a; read_log;
      repeat (destruct Hin as [Hin|Hin];
              [try discriminate; injection Hin as <- <-;
               first [discriminate Hcall | reflexivity]|]);
      contradiction.
  - intros Hres.
    on_path E a; read_log; try discriminate.
    eexists. cbn. do 7 right. left. reflexivity.
Qed.

Lemma repackaging_arguments_witness :
  result_of Sample.healthy Sample.plain = Return tt /\
  (exists rc,
      In (ERun (create_argv Sample.plain (temp_dir Sample.healthy)) rc)
         (events Sample.healthy Sample.plain)) /\
  create_argv Sample.plain (temp_dir Sample.healthy) =
    ["hdiutil"; "create"; "-volname"; "input";
     "-srcfolder"; "/tmp/tmpb2/contents"; "-ov"; "-format"; "UDZO";
     "/path/to/your/output.dmg"].
Proof.
  split; [reflexivity|]. split.
  - apply (proj2 (repackaging_arguments Sample.healthy Sample.plain)).
    reflexivity.
  - apply (proj1 (repackaging_arguments Sample.healthy Sample.plain)
             (create_argv Sample.plain (temp_dir Sample.healthy)) 0).
    + vm_compute. tauto.
    + reflexivity.
Defined.

(** ** [hdiutil]'s exit status plays no part *)

Lemma path_of_with_hdiutil f E a : path_of (with_hdiutil f E) a = path_of E a.
Proof. reflexivity. Qed.

Lemma restatus_answered f E argv :
  restatus f (answered E argv) = answered (with_hdiutil f E) argv.
Proof.
  unfold restatus, answered. cbn. destruct (is_hdiutil argv); reflexivity.
Qed.

(** C10.  The exit statuses of [hdiutil attach], [hdiutil detach] and
    [hdiutil create] are not looked at: with other answers from [hdiutil],
    whatever they are, the run ends with the same result, leaves the same
    directories, and does the same things in the same order; the log differs
    only in the statuses it records for [hdiutil]. *)
Theorem hdiutil_status_unchecked f E a :
  result_of (with_hdiutil f E) a = result_of E a /\
  leftover (with_hdiutil f E) a = leftover E a /\
  events (with_hdiutil f E) a = map (restatus f) (events E a).
Proof.
  rewrite !result_path, !leftover_path, !events_path, path_of_with_hdiutil.
  destruct (path_of E a); unfold path_outcome, extraction, caught;
    rewrite ?map_app; cbn [map fst snd];
    rewrite ?restatus_answered; cbn [restatus];
    repeat split; reflexivity.
Qed.

(** All three [hdiutil] calls fail, and the run still goes through every
    step and ends with status 0. *)
Example hdiutil_failures_ignored :
  run Sample.hdiutil_fails Sample.plain =
    (Return tt,
     World [] [] 2
       [EMkdtemp "/tmp/tmpa1";
        ERun ["hdiutil"; "attach"; "/path/to/your/input.dmg";
              "-mountpoint"; "/tmp/tmpa1"] 1;
        EMkdtemp "/tmp/tmpb2";
        ECopytree "/tmp/tmpa1" "/tmp/tmpb2/contents";
        ERun ["hdiutil"; "detach"; "/tmp/tmpa1"] 1;
        EListdir "/tmp/tmpb2/contents";
        ERun ["codesign"; "--deep"; "--force"; "--verbose"; "--options";
              "runtime"; "--timestamp"; "--sign";
              "Developer ID Application: YOUR_NAME (TEAM_ID)";
              "/tmp/tmpb2/contents/Chat.app"] 0;
        ERun ["hdiutil"; "create"; "-volname"; "input";
              "-srcfolder"; "/tmp/tmpb2/contents"; "-ov";
              "-format"; "UDZO"; "/path/to/your/output.dmg"] 1;
        ERmtree "/tmp/tmpb2"; ERmtree "/tmp/tmpa1"]).
Proof. vm_compute. reflexivity. Qed.

(** ** Where the temporary directories are left behind *)

(** Every run that ends on the no-bundle branch leaves both directories. *)
Lemma no_bundle_leftover E a kids :
  given a = true ->
  mount_point E <> temp_dir E ->
  read_tree E (mount_point E) = Some kids ->
  find_app (temp_dir E) (map node_name kids) = None ->
  leftover E a = [mount_point E; temp_dir E].
Proof.
  intros Hg Hf Hr Hn.
  pose proof (run_no_bundle E a kids Hg Hf Hr Hn) as Hrun.
  unfold outcome in Hrun. injection Hrun as _ Hleft _. exact Hleft.
Qed.

(** The directories are gone exactly on the paths that reach an [rmtree]:
    a failed signing, a verification that exits non-zero, and success. *)
Lemma leftover_by_path E a :
  leftover E a =
    match path_of E a with
    | Usage | SignFailed _ | Signed _ | VerifyFailed _ => []
    | TmpClash => [mount_point E]
    | CopyFailed | NoBundle | VerifyCrashed _ => [mount_point E; temp_dir E]
    end.
Proof. rewrite leftover_path. destruct (path_of E a); reflexivity. Qed.

(** C1.  On a volume with no bundle at its top the run prints the error
    and exits with status 1 without a single [rmtree]: the mount point and
    the working directory are both still there when the process ends. *)
Theorem no_bundle_leaves_directories :
  run Sample.no_bundle Sample.plain =
    (Raise (SystemExit 1),
     World ["/tmp/tmpa1"; "/tmp/tmpb2"]
       [("/tmp/tmpb2/contents", Sample.nested_only)] 2
       [EMkdtemp "/tmp/tmpa1";
        ERun ["hdiutil"; "attach"; "/path/to/your/input.dmg";
              "-mountpoint"; "/tmp/tmpa1"] 0;
        EMkdtemp "/tmp/tmpb2";
        ECopytree "/tmp/tmpa1" "/tmp/tmpb2/contents";
        ERun ["hdiutil"; "detach"; "/tmp/tmpa1"] 0;
        EListdir "/tmp/tmpb2/contents";
        EPrint (Msg "No .app bundle found in the DMG.")])
  /\ leftover Sample.no_bundle Sample.plain = ["/tmp/tmpa1"; "/tmp/tmpb2"].
Proof. split; vm_compute; reflexivity. Qed.

(** C2.  With the verify flag, when [codesign --verify] exits zero and its
    standard output has no "valid" text (it is empty), the run ends with the
    uncaught [TypeError] of [re.search]: status 1, but nothing is printed by
    the script, no [rmtree] is run, and both directories are still there. *)
Theorem verify_mismatch_skips_cleanup :
  run Sample.healthy Sample.checked =
    (Raise TypeError,
     World ["/tmp/tmpa1"; "/tmp/tmpb2"]
       [("/tmp/tmpb2/contents", Sample.two_bundles)] 2
       [EMkdtemp "/tmp/tmpa1";
        ERun ["hdiutil"; "attach"; "/path/to/your/input.dmg";
              "-mountpoint"; "/tmp/tmpa1"] 0;
        EMkdtemp "/tmp/tmpb2";
        ECopytree "/tmp/tmpa1" "/tmp/tmpb2/contents";
        ERun ["hdiutil"; "detach"; "/tmp/tmpa1"] 0;
        EListdir "/tmp/tmpb2/contents";
        ERun ["codesign"; "--deep"; "--force"; "--verbose"; "--options";
              "runtime"; "--timestamp"; "--sign";
              "Developer ID Application: YOUR_NAME (TEAM_ID)";
              "/tmp/tmpb2/contents/Chat.app"] 0;
        ERun ["codesign"; "--deep"; "--verify"; "--verbose=2"; "--strict";
              "/tmp/tmpb2/contents/Chat.app"] 0])
  /\ leftover Sample.healthy Sample.checked = ["/tmp/tmpa1"; "/tmp/tmpb2"]
  /\ status Sample.healthy Sample.checked = 1.
Proof. repeat split; vm_compute; reflexivity. Qed.

(** The sibling branch: when the same tool exits non-zero, the script does
    print, remove both directories and exit with status 1. *)
Example verify_failure_cleans_up :
  run Sample.verification_fails Sample.checked =
    (Raise (SystemExit 1),
     World [] [] 2
       [EMkdtemp "/tmp/tmpa1";
        ERun ["hdiutil"; "attach"; "/path/to/your/input.dmg";
              "-mountpoint"; "/tmp/tmpa1"] 0;
        EMkdtemp "/tmp/tmpb2";
        ECopytree "/tmp/tmpa1" "/tmp/tmpb2/contents";
        ERun ["hdiutil"; "detach"; "/tmp/tmpa1"] 0;
        EListdir "/tmp/tmpb2/contents";
        ERun ["codesign"; "--deep"; "--force"; "--verbose"; "--options";
              "runtime"; "--timestamp"; "--sign";
              "Developer ID Application: YOUR_NAME (TEAM_ID)";
              "/tmp/tmpb2/contents/Chat.app"] 0;
        ERun ["codesign"; "--deep"; "--verify"; "--verbose=2"; "--strict";
              "/tmp/tmpb2/contents/Chat.app"] 1;
        EPrint (MsgExn "Error during codesign validation: "
                  (CalledProcessError 1
                     ["codesign"; "--deep"; "--verify"; "--verbose=2";
                      "--strict"; "/tmp/tmpb2/contents/Chat.app"]));
        ERmtree "/tmp/tmpb2"; ERmtree "/tmp/tmpa1"]).
Proof. vm_compute. reflexivity. Qed.

(** An empty fingerprint is not taken: the common name is what the signing
    tool is given. *)
Example empty_fingerprint_falls_back :
  identity (Sample.command (Some "") Sample.developer false) =
    "Developer ID Application: YOUR_NAME (TEAM_ID)".
Proof. reflexivity. Qed.

(** A bundle below the top of the volume is not found. *)
Example nested_bundle_not_found :
  find_app "/tmp/tmpb2" (map node_name Sample.nested_only) = None.
Proof. reflexivity. Qed.

(** * Further properties of the script *)




(** X2.  With the verify flag no run succeeds, whatever the tools answer:
    the exit status is 1 and [hdiutil create] is never run. *)
Theorem verify_flag_never_succeeds E a :
  verify a = true ->
  status E a = 1 /\
  create_called (events E a) = false /\
  result_of E a <> Return tt.
Proof.
  intros Hv. on_path E a; read_log; try congruence;
    repeat split; try reflexivity; try discriminate.
  all: destruct (re_compiles E _); first [reflexivity | discriminate].
Qed.

Lemma verify_flag_never_succeeds_witness :
  verify Sample.checked = true /\
  status Sample.healthy Sample.checked = 1 /\
  create_called (events Sample.healthy Sample.checked) = false /\
  result_of Sample.healthy Sample.checked <> Return tt.
Proof.
  split; [reflexivity|].
  apply (verify_flag_never_succeeds Sample.healthy Sample.checked).
  reflexivity.
Defined.

(** X3.  No run ever runs [spctl]: the only tools in any log are [hdiutil]
    and [codesign]. *)
Theorem only_hdiutil_and_codesign_run E a :
  forallb known_tool_event (events E a) = true /\
  spctl_called (events E a) = false.
Proof.
  unfold known_tool_event, is_codesign.
  on_path E a; read_log; split; reflexivity.
Qed.



(** X5.  The exit status of every run is 0 or 1. *)
Theorem status_is_0_or_1 E a : status E a = 0 \/ status E a = 1.
Proof.
  on_path E a; read_log; auto.
  destruct (re_compiles E _); auto.
Qed.


(** X7.  When [copytree] raises, nothing catches it: the run ends with
    status 1 right after the copy, both temporary directories are left, and
    [hdiutil detach] is never run. *)
Theorem copy_failure_is_fatal E a :
  given a = true ->
  mount_point E <> temp_dir E ->
  read_tree E (mount_point E) = None ->
  result_of E a = Raise ShutilError /\
  status E a = 1 /\
  leftover E a = [mount_point E; temp_dir E] /\
  detach_called (events E a) = false /\
  last (events E a) (EPrint (Msg "")) = ECopytree (mount_point E) (contents E).
Proof.
  intros Hg Hf Hr.
  pose proof (run_copy_failed E a Hg Hf Hr) as Hrun.
  unfold outcome in Hrun. injection Hrun as Hres Hleft Hev.
  unfold status. rewrite Hres, Hleft, Hev.
  unfold detach_called, ran, answered, attach_argv.
  repeat split; reflexivity.
Qed.

Lemma copy_failure_is_fatal_witness :
  read_tree Cases.unreadable (mount_point Cases.unreadable) = None /\
  result_of Cases.unreadable Sample.plain = Raise ShutilError /\
  status Cases.unreadable Sample.plain = 1 /\
  leftover Cases.unreadable Sample.plain = ["/tmp/tmpa1"; "/tmp/tmpb2"] /\
  detach_called (events Cases.unreadable Sample.plain) = false /\
  last (events Cases.unreadable Sample.plain) (EPrint (Msg "")) =
    ECopytree "/tmp/tmpa1" "/tmp/tmpb2/contents".
Proof.
  split; [reflexivity|].
  apply (copy_failure_is_fatal Cases.unreadable Sample.plain).
  - reflexivity.
  - discriminate.
  - reflexivity.
Defined.




(** X10.  What the tools write on standard output, and what the pattern
    would find in it, play no part: with any other output and any other
    search result the run ends the same way, leaves the same directories
    and has the same log. *)
Theorem output_is_never_looked_at g finds E a :
  outcome (with_output g finds E) a = outcome E a.
Proof.
  rewrite !run_path. reflexivity.
Qed.



(** X12.  The message that no bundle was found is printed only when no
    immediate child of the copied directory has a name ending in [.app]. *)
Theorem no_bundle_message_is_right E a kids :
  read_tree E (mount_point E) = Some kids ->
  In (EPrint (Msg "No .app bundle found in the DMG.")) (events E a) ->
  Forall (fun n => Py.endswith (node_name n) ".app" = false) kids.
Proof.
  intros Hr Hin.
  on_path E a; read_log;
    repeat (destruct Hin as [Hin|Hin]; [discriminate Hin|]);
    try contradiction.
  match goal with
  | Hr' : read_tree E _ = Some _, Hn : find_app _ _ = None |- _ =>
      rewrite Hr in Hr'; injection Hr' as <-;
      apply find_app_none in Hn; apply Forall_map in Hn; exact Hn
  end.
Qed.

Lemma no_bundle_message_is_right_witness :
  In (EPrint (Msg "No .app bundle found in the DMG."))
     (events Sample.no_bundle Sample.plain) /\
  Forall (fun n => Py.endswith (node_name n) ".app" = false) Sample.nested_only.
Proof.
  assert (Hin : In (EPrint (Msg "No .app bundle found in the DMG."))
                   (events Sample.no_bundle Sample.plain)).
  { vm_compute. tauto. }
  split; [exact Hin|].
  apply (no_bundle_message_is_right Sample.no_bundle Sample.plain
           Sample.nested_only eq_refl Hin).
Defined.

(** ** The names the script builds *)

Lemma rfind_absent_cons c x s :
  Py.rfind c (String x s) = -1 <-> (Ascii.eqb x c = false /\ Py.rfind c s = -1).
Proof.
  pose proof (rfind_lower c s) as Hlow. cbn [Py.rfind].
  destruct (Z.leb_spec 0 (Py.rfind c s)); [lia|].
  destruct (Ascii.eqb x c); split; intros; try lia; try (split; [reflexivity|lia]).
Qed.

Lemma rfind_take c n s : Py.rfind c s = -1 -> Py.rfind c (Py.take n s) = -1.
Proof.
  revert s. induction n as [|n IH]; intros [|x s] H; try reflexivity.
  apply rfind_absent_cons in H as [Hx Hs].
  cbn [Py.take]. apply rfind_absent_cons. split; [exact Hx | apply IH, Hs].
Qed.

Lemma rfind_append c s1 s2 :
  Py.rfind c (s1 ++ s2)%string =
    if 0 <=? Py.rfind c s2
    then Z.of_nat (String.length s1) + Py.rfind c s2
    else Py.rfind c s1.
Proof.
  pose proof (rfind_lower c s2) as Hlow.
  induction s1 as [|x s1 IH].
  - change (("" ++ s2)%string) with s2. cbn [String.length Py.rfind].
    destruct (Z.leb_spec 0 (Py.rfind c s2)); lia.
  - change ((String x s1 ++ s2)%string) with (String x (s1 ++ s2)%string).
    cbn [Py.rfind String.length]. rewrite IH.
    destruct (Z.leb_spec 0 (Py.rfind c s2)).
    + destruct (Z.leb_spec 0 (Z.of_nat (String.length s1) + Py.rfind c s2)); lia.
    + reflexivity.
Qed.

Lemma drop_append s1 s2 : Py.drop (String.length s1) (s1 ++ s2)%string = s2.
Proof.
  induction s1 as [|x s1 IH]; [apply drop_0|].
  change ((String x s1 ++ s2)%string) with (String x (s1 ++ s2)%string).
  cbn [String.length Py.drop]. exact IH.
Qed.

Lemma take_append s1 s2 : Py.take (String.length s1) (s1 ++ s2)%string = s1.
Proof.
  induction s1 as [|x s1 IH]; [destruct s2; reflexivity|].
  change ((String x s1 ++ s2)%string) with (String x (s1 ++ s2)%string).
  cbn [String.length Py.take]. rewrite IH. reflexivity.
Qed.

(** X13.  The volume name given to [hdiutil create] never contains a
    slash, whatever the input path is. *)
Theorem volume_name_has_no_slash a temp :
  exists volname,
    nth_error (create_argv a temp) 3 = Some volname /\
    Py.rfind "/" volname = -1.
Proof.
  eexists. split; [reflexivity|].
  pose proof (basename_no_sep (input_dmg a)) as Hb.
  unfold Py.splitext.
  destruct (_ <? _); [|exact Hb].
  destruct (Py.has_non_dot _ _ _); cbn [fst]; [|exact Hb].
  apply rfind_take. exact Hb.
Qed.

(** X14.  For an input path [dir/stem.ext], where [stem] has no slash and
    does not begin with a dot and [ext] has neither slash nor dot, the
    volume name is [stem] (dots inside [stem] are kept). *)
Theorem volume_name_is_the_stem dir c stem ext :
  c <> "."%char ->
  Py.rfind "/" (String c stem) = -1 ->
  Py.rfind "/" ext = -1 ->
  Py.rfind "." ext = -1 ->
  fst (Py.splitext
         (Py.basename (dir ++ String "/" (String c stem ++ String "." ext))%string))
    = String c stem.
Proof.
  intros Hc Hstem Hext Hdot.
  set (name := (String c stem ++ String "." ext)%string).
  assert (Hsep : Py.rfind "/" name = -1).
  { unfold name. rewrite rfind_append.
    replace (Py.rfind "/" (String "." ext)) with (-1)
      by (symmetry; apply rfind_absent_cons; split; [reflexivity | exact Hext]).
    exact Hstem. }
  assert (Hbase : Py.basename (dir ++ String "/" name)%string = name).
  { unfold Py.basename. rewrite rfind_append.
    cbn [Py.rfind]. rewrite Hsep. cbn.
    replace (Z.to_nat (Z.of_nat (String.length dir) + 0 + 1))
      with (S (String.length dir)) by lia.
    clear. induction dir as [|x dir IH]; [reflexivity|].
    change ((String x dir ++ String "/" name)%string)
      with (String x (dir ++ String "/" name)%string).
    cbn [String.length Py.drop]. exact IH. }
  rewrite Hbase. unfold Py.splitext. rewrite Hsep.
  assert (Hd : Py.rfind "." name = Z.of_nat (String.length (String c stem))).
  { unfold name. rewrite rfind_append. cbn [Py.rfind]. rewrite Hdot. cbn. lia. }
  rewrite Hd.
  replace (-1 <? Z.of_nat (String.length (String c stem))) with true
    by (symmetry; apply Z.ltb_lt; lia).
  replace (Z.to_nat (Z.of_nat (String.length (String c stem)) - (-1 + 1)))
    with (S (String.length stem)) by (cbn [String.length]; lia).
  change (Z.to_nat (-1 + 1)) with 0%nat.
  assert (Hnd : Py.has_non_dot (S (String.length stem)) 0 name = true).
  { unfold name.
    change ((String c stem ++ String "." ext)%string)
      with (String c (stem ++ String "." ext)%string).
    cbn [Py.has_non_dot substring].
    replace (substring 0 0 (stem ++ String "." ext)%string) with ""
      by (destruct (stem ++ String "." ext)%string; reflexivity).
    destruct (String.eqb_spec (String c "") ".") as [Heq|_]; [|reflexivity].
    injection Heq as Heq. contradiction. }
  rewrite Hnd. cbn [fst]. rewrite Nat2Z.id.
  unfold name. apply take_append.
Qed.

Lemma volume_name_is_the_stem_witness :
  fst (Py.splitext (Py.basename "/Volumes/build/gpt4all-installer.v2.dmg")) =
    "gpt4all-installer.v2".
Proof.
  apply (volume_name_is_the_stem "/Volumes/build" "g" "pt4all-installer.v2" "dmg").
  - discriminate.
  - reflexivity.
  - reflexivity.
  - reflexivity.
Defined.

Lemma length_append s1 s2 :
  String.length (s1 ++ s2)%string = (String.length s1 + String.length s2)%nat.
Proof.
  induction s1 as [|x s1 IH]; [reflexivity|].
  change ((String x s1 ++ s2)%string) with (String x (s1 ++ s2)%string).
  cbn [String.length]. rewrite IH. reflexivity.
Qed.

Lemma substring_whole s : substring 0 (String.length s) s = s.
Proof.
  induction s as [|x s IH]; [reflexivity|].
  cbn [String.length substring]. rewrite IH. reflexivity.
Qed.

Lemma substring_tail k m s :
  (k + m = String.length s)%nat -> substring k m s = Py.drop k s.
Proof.
  revert s. induction k as [|k IH]; intros s H.
  - cbn [Nat.add] in H. subst m. rewrite drop_0. apply substring_whole.
  - destruct s as [|x s]; [discriminate H|].
    cbn [substring Py.drop]. apply IH. cbn [String.length] in H. lia.
Qed.

(** [s.endswith(suffix)] holds exactly when [s] is some string followed by
    [suffix]. *)
Lemma endswith_iff_suffix s suffix :
  Py.endswith s suffix = true <-> exists p, s = (p ++ suffix)%string.
Proof.
  unfold Py.endswith. split.
  - intros [Hlen Hsub]%andb_prop.
    apply Nat.leb_le in Hlen. apply String.eqb_eq in Hsub.
    exists (Py.take (String.length s - String.length suffix) s).
    rewrite <- Hsub at 2.
    rewrite substring_tail by lia.
    symmetry. apply take_drop.
  - intros [p ->]. rewrite length_append.
    apply andb_true_intro. split; [apply Nat.leb_le; lia|].
    replace (String.length p + String.length suffix - String.length suffix)%nat
      with (String.length p) by lia.
    rewrite substring_tail by (rewrite length_append; reflexivity).
    rewrite drop_append. apply String.eqb_refl.
Qed.

(** X16.  The locator finds a bundle exactly when one of the listed names
    is of the form [<anything>.app], the bare name [.app] included. *)
Theorem find_app_iff_some_name td items :
  (exists app_bundle, find_app td items = Some app_bundle) <->
  (exists p, In (p ++ ".app")%string items).
Proof.
  split.
  - intros [b (pre & item & post & -> & _ & Hitem & _)%find_app_inv].
    apply endswith_iff_suffix in Hitem as [p ->].
    exists p. apply in_or_app. right. left. reflexivity.
  - intros [p Hin].
    destruct (find_app td items) as [b|] eqn:Hb; [exists b; reflexivity|].
    apply find_app_none in Hb. rewrite Forall_forall in Hb.
    specialize (Hb _ Hin).
    assert (Ht : Py.endswith (p ++ ".app") ".app" = true)
      by (apply endswith_iff_suffix; exists p; reflexivity).
    congruence.
Qed.




